(** * Parser combinators of [parsers.py]: a shallow embedding

    The embedding follows [parsers.py] definition by definition.

    - A Python [str] is a Rocq [string]; its characters are the code points
      0..255, so one [ascii] is one character of the text.
    - A Python call either returns a value or raises: [py A].
    - [Result] is the tagged outcome of one parse attempt, [Parser] wraps a
      function from [str] to [Result], [ParserRef] is the bind-later cell. *)

From Stdlib Require Import String Ascii List ZArith NArith Arith Bool Lia.
Import ListNotations.

Local Open Scope string_scope.

(** ** Python calls: a value or a raised exception *)

Inductive exn : Type :=
| IndexError
| NameError (name : string)
| AttributeError (attr : string).

Inductive py (A : Type) : Type :=
| Ret (a : A)
| Raise (e : exn).

Arguments Ret {A} a.
Arguments Raise {A} e.

Definition py_bind {A B : Type} (c : py A) (k : A -> py B) : py B :=
  match c with
  | Ret a => k a
  | Raise e => Raise e
  end.

Declare Scope py_scope.
Delimit Scope py_scope with py.
Notation "x <- c ;; k" := (py_bind c (fun x => k))
  (at level 61, c at next level, right associativity) : py_scope.
Local Open Scope py_scope.

Definition returns {A : Type} (c : py A) : Prop := exists a, c = Ret a.
Definition raises {A : Type} (c : py A) : Prop := exists e, c = Raise e.

(** ** The [str] operations the parsers use *)

(** [s[i]] for [i >= 0]: IndexError when [i] is past the end. *)
Definition str_index (s : string) (i : nat) : py ascii :=
  match String.get i s with
  | Some c => Ret c
  | None => Raise IndexError
  end.

(** [s[n:]]: a slice never raises, it is empty past the end. *)
Fixpoint slice_from (n : nat) (s : string) : string :=
  match n, s with
  | O, _ => s
  | S _, EmptyString => EmptyString
  | S m, String _ t => slice_from m t
  end.

(** [s.startswith(prefix)] *)
Definition startswith (s prefix : string) : bool := String.prefix prefix s.

(** [c in chars] for a character [c] *)
Fixpoint char_in (c : ascii) (chars : string) : bool :=
  match chars with
  | EmptyString => false
  | String d t => Ascii.eqb c d || char_in c t
  end.

(** [s.lstrip(chars)] *)
Fixpoint lstrip (chars : string) (s : string) : string :=
  match s with
  | EmptyString => EmptyString
  | String c t => if char_in c chars then lstrip chars t else s
  end.

(** [ord(c)] *)
Definition ord (c : ascii) : Z := Z.of_N (N_of_ascii c).

(** [c.isdigit()] on the code points 0..255: the decimal digits '0'..'9'
    and the three superscript digits U+00B2, U+00B3 and U+00B9, which
    [str.isdigit] also accepts. *)
Definition isdigit (c : ascii) : bool :=
  let n := ord c in
  ((48 <=? n) && (n <=? 57) || (n =? 178) || (n =? 179) || (n =? 185))%Z.

(** The ASCII decimal digits '0'..'9'. *)
Definition is_ascii_digit (c : ascii) : bool :=
  ((48 <=? ord c) && (ord c <=? 57))%Z.

(** [not s]: the empty [str] is falsy. *)
Definition str_not (s : string) : bool :=
  match s with
  | EmptyString => true
  | String _ _ => false
  end.

(** ** class Result *)

Module Result.

Inductive t (T : Type) : Type :=
| ok (value : T) (remaining : string)
| err (expected actual : string).

Arguments ok {T} value remaining.
Arguments err {T} expected actual.

Definition is_ok {T} (self : t T) : bool :=
  match self with ok _ _ => true | err _ _ => false end.

Definition is_err {T} (self : t T) : bool :=
  match self with ok _ _ => false | err _ _ => true end.

(** How a failed [Result] that [flat_map] hands back unchanged is read
    in the type of what the continuation returns. *)
Class Unchanged (X : Type) : Type := unchanged : string -> string -> X.

#[global] Instance Unchanged_result (U : Type) : Unchanged (py (t U)) :=
  fun expected actual => Ret (err expected actual).

Definition map {T U} (self : t T) (f : T -> U) : t U :=
  match self with
  | ok value remaining => ok (f value) remaining
  | err expected actual => err expected actual
  end.

Definition flat_map {T X} `{Unchanged X} (self : t T) (f : T -> string -> X) : X :=
  match self with
  | ok value remaining => f value remaining
  | err expected actual => unchanged expected actual
  end.

Definition map_expected {T} (self : t T) (f : string -> string) : t T :=
  match self with
  | ok value remaining => ok value remaining
  | err expected actual => err (f expected) actual
  end.

(** [__eq__]: two Results are equal when both are ok with equal value and
    remaining, or both are err with equal expected and actual; [value_eq]
    is [==] on the values. *)
Definition __eq__ {T} (value_eq : T -> T -> bool) (self other : t T) : bool :=
  match self, other with
  | ok value1 remaining1, ok value2 remaining2 =>
      value_eq value1 value2 && String.eqb remaining1 remaining2
  | err expected1 actual1, err expected2 actual2 =>
      String.eqb expected1 expected2 && String.eqb actual1 actual2
  | _, _ => false
  end.

End Result.

Import Result(ok, err).

(** ** Names in scope

    A name a function body mentions is looked up among the bindings in
    scope when the line runs; an unbound name raises NameError. *)

Fixpoint resolve {V : Type} (name : string) (scope : list (string * V)) : py V :=
  match scope with
  | [] => Raise (NameError name)
  | (n, v) :: rest => if String.eqb name n then Ret v else resolve name rest
  end.

(** ** class Parser *)

Module Parser.

Record t (T : Type) : Type := Parser { _parse : string -> py (Result.t T) }.

Arguments Parser {T} _parse.
Arguments _parse {T} _ _.

Definition __call__ {T} (self : t T) (input : string) : py (Result.t T) :=
  _parse self input.

Definition map {T U} (self : t T) (f : T -> U) : t U :=
  let _mapped := fun input : string =>
    r <- __call__ self input ;; Ret (Result.map r f) in
  Parser _mapped.

(** What the inner function of [flat_map] computes: [Result.flat_map]
    hands back [f(value, remaining)] itself, which is a Parser, when the
    first parse succeeded, and the failed Result otherwise. *)
Inductive flat_mapped (U : Type) : Type :=
| next_parser (p : t U)
| failed (expected actual : string).

Arguments next_parser {U} p.
Arguments failed {U} expected actual.

#[global] Instance Unchanged_flat_mapped (U : Type) :
  Result.Unchanged (py (flat_mapped U)) :=
  fun expected actual => Ret (failed expected actual).

(** [flat_map] defines [_mapped] and then returns the name [mapped].  The
    bindings in scope on that line are the parameters [self] and [f], the
    local [_mapped] and the names of the module; [_mapped] is the only one
    of them that could be meant. *)
Definition flat_map {T U} (self : t T) (f : T -> string -> t U)
  : py (string -> py (flat_mapped U)) :=
  let _mapped := fun input : string =>
    r <- __call__ self input ;;
    Result.flat_map r (fun value remaining => Ret (next_parser (f value remaining))) in
  resolve "mapped" [("_mapped", _mapped)].

Definition retn {T U} (self : t T) (v : U) : t U :=
  let _mapped := fun input : string =>
    r <- __call__ self input ;; Ret (Result.map r (fun _ => v)) in
  Parser _mapped.

Definition __mul__ {T U} (self : t T) (p2 : t U) : t (T * U) :=
  let _step2 := fun (v1 : T) (r1 : string) =>
    r <- __call__ p2 r1 ;; Ret (Result.map r (fun v2 => (v1, v2))) in
  let _seq := fun input : string =>
    r <- __call__ self input ;; Result.flat_map r _step2 in
  Parser _seq.

Definition __or__ {T} (self : t T) (p2 : t T) : t T :=
  let _or := fun input : string =>
    r1 <- __call__ self input ;;
    match r1 with
    | ok _ _ => Ret r1
    | err r1_expected _ =>
        let _expect := fun e2 : string => r1_expected ++ " or " ++ e2 in
        r2 <- __call__ p2 input ;; Ret (Result.map_expected r2 _expect)
    end in
  Parser _or.

Definition before {T U} (self : t T) (p2 : t U) : t U :=
  let _second := fun t : T * U => snd t in
  map (__mul__ self p2) _second.

(** The method [then]; the name is a keyword here. *)
Definition then_ {T U} (self : t T) (p2 : t U) : t T :=
  let _first := fun t : T * U => fst t in
  map (__mul__ self p2) _first.

End Parser.

Import Parser(Parser).

(** ** class ParserRef *)

Module ParserRef.

(** The object's attributes: [_p] is absent until [set] assigns it. *)
Record t (T : Type) : Type := ParserRef { _p : option (Parser.t T) }.

Arguments ParserRef {T} _p.
Arguments _p {T} _.

(** [ParserRef()]: the class has no [__init__], a new object has no [_p]. *)
Definition new (T : Type) : t T := ParserRef None.

(** [set] returns None; the result is the object after the assignment. *)
Definition set {T} (self : t T) (p : Parser.t T) : py (t T) :=
  Ret (ParserRef (Some p)).

Definition __call__ {T} (self : t T) (input : string) : py (Result.t T) :=
  match _p self with
  | Some p => Parser.__call__ p input
  | None => Raise (AttributeError "_p")
  end.

(** [get] wraps the object itself: the Parser it returns reads [_p] of the
    object each time it is invoked, so [self] is the object as it is then. *)
Definition get {T} (self : t T) : Parser.t T :=
  Parser (__call__ self).

End ParserRef.

(** ** The primitive parsers *)

Definition the_letter_a : Parser.t unit :=
  Parser (fun input =>
    c <- str_index input 0 ;;
    if Ascii.eqb c "a"
    then Ret (ok tt (slice_from 1 input))
    else Ret (err "'a'" input)).

Definition string (expected : String.string) : Parser.t unit :=
  let _parse := fun input : String.string =>
    if startswith input expected
    then Ret (ok tt (slice_from (String.length expected) input))
    else Ret (err ("'" ++ expected ++ "'") input) in
  Parser _parse.

(** The characters of the literal [" \n\r\t"]. *)
Definition whitespace : String.string :=
  String " " (String "010" (String "013" (String "009" EmptyString))).

Definition skip_whitespace : Parser.t unit :=
  Parser (fun input => Ret (ok tt (lstrip whitespace input))).

(** The [while] loop of [integer].  It runs at most [len(input)] times, and
    that is the fuel it is given. *)
Fixpoint integer_loop (fuel : nat) (input : String.string) (value : Z) (pos : nat)
  : py (Z * nat) :=
  match fuel with
  | O => Ret (value, pos)
  | S fuel' =>
      if (pos <? String.length input)%nat then
        c <- str_index input pos ;;
        if isdigit c
        then integer_loop fuel' input (value * 10 + (ord c - ord "0"))%Z (pos + 1)%nat
        else Ret (value, pos)
      else Ret (value, pos)
  end.

Definition integer : Parser.t Z :=
  Parser (fun input =>
    if str_not input then Ret (err "an integer" input) else
    c <- str_index input 0 ;;
    if negb (isdigit c) then Ret (err "an integer" input) else
    vp <- integer_loop (String.length input) input 0 0 ;;
    let (value, pos) := vp in
    Ret (ok value (slice_from pos input))).

(** ** Notions the properties are stated with *)

(** [r] is what is left of [s] after some leading characters. *)
Definition is_suffix (r s : String.string) : Prop :=
  exists consumed : String.string, s = consumed ++ r.

(** The maximal leading run of characters that pass [test]. *)
Fixpoint leading_run (test : ascii -> bool) (s : String.string) : String.string :=
  match s with
  | EmptyString => EmptyString
  | String c t => if test c then String c (leading_run test t) else EmptyString
  end.

(** The run's value in base 10, left to right, from [value]. *)
Fixpoint accumulate (value : Z) (run : String.string) : Z :=
  match run with
  | EmptyString => value
  | String c t => accumulate (value * 10 + (ord c - 48))%Z t
  end.

(** No character of the text is one of the superscript digits that
    [isdigit] accepts beside '0'..'9'. *)
Fixpoint ascii_digits_only (s : String.string) : bool :=
  match s with
  | EmptyString => true
  | String c t => Bool.eqb (isdigit c) (is_ascii_digit c) && ascii_digits_only t
  end.

(** The parsers built from the primitives with [map], [retn], product,
    ordered choice, [before] and [then]. *)
Inductive built : forall T : Type, Parser.t T -> Prop :=
| built_the_letter_a : built unit the_letter_a
| built_string (expected : String.string) : built unit (string expected)
| built_skip_whitespace : built unit skip_whitespace
| built_integer : built Z integer
| built_map (T U : Type) (p : Parser.t T) (f : T -> U) :
    built T p -> built U (Parser.map p f)
| built_retn (T U : Type) (p : Parser.t T) (v : U) :
    built T p -> built U (Parser.retn p v)
| built_mul (T U : Type) (p1 : Parser.t T) (p2 : Parser.t U) :
    built T p1 -> built U p2 -> built (T * U) (Parser.__mul__ p1 p2)
| built_or (T : Type) (p1 p2 : Parser.t T) :
    built T p1 -> built T p2 -> built T (Parser.__or__ p1 p2)
| built_before (T U : Type) (p1 : Parser.t T) (p2 : Parser.t U) :
    built T p1 -> built U p2 -> built U (Parser.before p1 p2)
| built_then (T U : Type) (p1 : Parser.t T) (p2 : Parser.t U) :
    built T p1 -> built U p2 -> built T (Parser.then_ p1 p2).

(** Every Success of [p] leaves a suffix of the text [p] was given. *)
Definition leaves_suffix {T : Type} (p : Parser.t T) : Prop :=
  forall s v r, Parser.__call__ p s = Ret (ok v r) -> is_suffix r s.

(** [c] is one of the characters [skip_whitespace] strips. *)
Definition is_whitespace (c : ascii) : bool := char_in c whitespace.

(** Every character of [s] passes [test]. *)
Fixpoint all_chars (test : ascii -> bool) (s : String.string) : bool :=
  match s with
  | EmptyString => true
  | String c t => test c && all_chars test t
  end.

(** The first character of [s], if there is one, passes [test]. *)
Definition starts_with_char (test : ascii -> bool) (s : String.string) : bool :=
  match s with
  | EmptyString => false
  | String c _ => test c
  end.

(** A triple nested to the right, nested to the left. *)
Definition reassociate {A B C : Type} (t : A * (B * C)) : (A * B) * C :=
  ((fst t, fst (snd t)), snd (snd t)).

(** * Properties *)

(** ** The tests of [test_parsers.py] *)

Example test_the_letter_a :
  Parser.__call__ the_letter_a "a" = Ret (ok tt "")
  /\ Parser.__call__ the_letter_a "aaa" = Ret (ok tt "aa")
  /\ Parser.__call__ the_letter_a "baa" = Ret (err "'a'" "baa").
Proof. repeat split. Qed.

Example test_string :
  Parser.__call__ (string "foo") "foo" = Ret (ok tt "")
  /\ Parser.__call__ (string "foo") "foobar" = Ret (ok tt "bar")
  /\ Parser.__call__ (string "foo") "barfoo" = Ret (err "'foo'" "barfoo").
Proof. repeat split. Qed.

Example test_integer :
  Parser.__call__ integer "123" = Ret (ok 123%Z "")
  /\ Parser.__call__ integer "123foo" = Ret (ok 123%Z "foo")
  /\ Parser.__call__ integer "bar" = Ret (err "an integer" "bar")
  /\ Parser.__call__ integer "" = Ret (err "an integer" "").
Proof. repeat split. Qed.

Example test_mul :
  let p := Parser.__mul__ the_letter_a the_letter_a in
  Parser.__call__ p "aa" = Ret (ok (tt, tt) "")
  /\ Parser.__call__ p "aab" = Ret (ok (tt, tt) "b")
  /\ Parser.__call__ p "ba" = Ret (err "'a'" "ba")
  /\ Parser.__call__ p "ab" = Ret (err "'a'" "b").
Proof. repeat split. Qed.

Example test_or :
  let p1 := Parser.retn the_letter_a 1%Z in
  let p2 := Parser.retn (string "b") 2%Z in
  let p := Parser.__or__ p1 p2 in
  Parser.__call__ p "aa" = Ret (ok 1%Z "a")
  /\ Parser.__call__ p "ba" = Ret (ok 2%Z "a")
  /\ Parser.__call__ p "ca" = Ret (err "'a' or 'b'" "ca").
Proof. repeat split. Qed.

Example test_before :
  let p := Parser.before the_letter_a integer in
  Parser.__call__ p "a123" = Ret (ok 123%Z "")
  /\ Parser.__call__ p "b123" = Ret (err "'a'" "b123")
  /\ Parser.__call__ p "ab" = Ret (err "an integer" "b").
Proof. repeat split. Qed.

Example test_then :
  let p := Parser.then_ the_letter_a integer in
  Parser.__call__ p "a123b" = Ret (ok tt "b")
  /\ Parser.__call__ p "b123a" = Ret (err "'a'" "b123a")
  /\ Parser.__call__ p "ab" = Ret (err "an integer" "b").
Proof. repeat split. Qed.

(** ** Texts: suffixes and slices *)

Lemma length_app (a b : String.string) :
  String.length (a ++ b) = String.length a + String.length b.
Proof.
  induction a as [|c a IH]; simpl; [reflexivity|].
  now rewrite IH.
Qed.

Lemma is_suffix_refl (s : String.string) : is_suffix s s.
Proof. now exists "". Qed.

Lemma is_suffix_trans (a b c : String.string) :
  is_suffix a b -> is_suffix b c -> is_suffix a c.
Proof.
  intros [x Hx] [y Hy]. exists (y ++ x). subst.
  clear. induction y as [|d y IH]; simpl; [reflexivity|].
  now rewrite IH.
Qed.

Lemma is_suffix_tail (c : ascii) (r s : String.string) :
  is_suffix r s -> is_suffix r (String c s).
Proof. intros [x Hx]. exists (String c x). simpl. now rewrite Hx. Qed.

Lemma is_suffix_length (r s : String.string) :
  is_suffix r s -> String.length r <= String.length s.
Proof. intros [x Hx]. subst. rewrite length_app. lia. Qed.

Lemma slice_from_is_suffix (n : nat) (s : String.string) :
  is_suffix (slice_from n s) s.
Proof.
  revert s. induction n as [|n IH]; intros s; simpl.
  - destruct s; apply is_suffix_refl.
  - destruct s as [|c s]; [apply is_suffix_refl|].
    apply is_suffix_tail, IH.
Qed.

Lemma lstrip_is_suffix (chars s : String.string) :
  is_suffix (lstrip chars s) s.
Proof.
  induction s as [|c s IH]; simpl; [apply is_suffix_refl|].
  destruct (char_in c chars); [|apply is_suffix_refl].
  apply is_suffix_tail, IH.
Qed.

Lemma slice_from_0 (s : String.string) : slice_from 0 s = s.
Proof. now destruct s. Qed.

(** ** The primitive parsers, case by case *)

Lemma the_letter_a_nonempty (c : ascii) (t : String.string) :
  Parser.__call__ the_letter_a (String c t)
  = if Ascii.eqb c "a" then Ret (ok tt t) else Ret (err "'a'" (String c t)).
Proof.
  unfold Parser.__call__, the_letter_a; simpl.
  destruct (Ascii.eqb c "a"); reflexivity.
Qed.

(** C3, at the input the claim names: on the empty text [input[0]] raises
    IndexError, so [the_letter_a] aborts where the claim has it return the
    Failure with expected ['a'] and the empty text as actual. *)
Theorem the_letter_a_empty_aborts :
  Parser.__call__ the_letter_a "" = Raise IndexError
  /\ Parser.__call__ the_letter_a "" <> Ret (err "'a'" "").
Proof. split; [reflexivity | discriminate]. Qed.

(** C10: [string("")] succeeds on every text with the unit value and the
    whole text left over. *)
Theorem string_empty_always_succeeds (s : String.string) :
  Parser.__call__ (string "") s = Ret (ok tt s).
Proof.
  unfold Parser.__call__, string, startswith; simpl.
  destruct s; reflexivity.
Qed.

(** C1, for every parser and function: [flat_map] builds no parser at all.
    Its last line names [mapped], which nothing binds, and the call raises
    NameError before any text is parsed. *)
Theorem flat_map_raises_NameError
  (T U : Type) (p : Parser.t T) (f : T -> String.string -> Parser.t U) :
  Parser.flat_map p f = Raise (NameError "mapped").
Proof. reflexivity. Qed.

(** ** Ordered choice *)

(** What [p1 | p2] returns once [p1] has failed with expected [e1]:
    [p2] is run on the same text and [map_expected] is applied to its
    result. *)
Lemma or_after_failure (T : Type) (p1 p2 : Parser.t T) (s e1 a1 : String.string) :
  Parser.__call__ p1 s = Ret (err e1 a1) ->
  Parser.__call__ (Parser.__or__ p1 p2) s
  = (r2 <- Parser.__call__ p2 s ;;
     Ret (Result.map_expected r2 (fun e2 => e1 ++ " or " ++ e2))).
Proof.
  intros H1. unfold Parser.__or__, Parser.__call__ at 1; simpl.
  now rewrite H1.
Qed.

Lemma or_after_success (T : Type) (p1 p2 : Parser.t T) (s : String.string)
  (v : T) (r : String.string) :
  Parser.__call__ p1 s = Ret (ok v r) ->
  Parser.__call__ (Parser.__or__ p1 p2) s = Ret (ok v r).
Proof.
  intros H1. unfold Parser.__or__, Parser.__call__ at 1; simpl.
  now rewrite H1.
Qed.

(** C2 as stated fails on the third case of [test_or]: both branches fail
    on "ca", and the choice returns the joined expected message, which is
    not what the second branch returns on its own. *)
Lemma or_differs_from_second_branch :
  Parser.__call__ (Parser.retn the_letter_a 1%Z) "ca" = Ret (err "'a'" "ca")
  /\ Parser.__call__ (Parser.retn (string "b") 2%Z) "ca" = Ret (err "'b'" "ca")
  /\ Parser.__call__
       (Parser.__or__ (Parser.retn the_letter_a 1%Z) (Parser.retn (string "b") 2%Z)) "ca"
     = Ret (err "'a' or 'b'" "ca")
  /\ Parser.__call__
       (Parser.__or__ (Parser.retn the_letter_a 1%Z) (Parser.retn (string "b") 2%Z)) "ca"
     <> Parser.__call__ (Parser.retn (string "b") 2%Z) "ca".
Proof. repeat split; discriminate. Qed.

(** C2, amended: when [p1] fails on [s] with expected [e1], the second
    branch is run on the original [s]; the choice returns exactly what
    [p2(s)] returns when that is a Success (or when [p2] aborts), and when
    [p2(s)] is Failure(e2, a2) it returns Failure("e1 or e2", a2). *)
Theorem or_backtracks_to_original_input
  (T : Type) (p1 p2 : Parser.t T) (s e1 a1 : String.string) :
  Parser.__call__ p1 s = Ret (err e1 a1) ->
  (forall v r, Parser.__call__ p2 s = Ret (ok v r) ->
     Parser.__call__ (Parser.__or__ p1 p2) s = Parser.__call__ p2 s)
  /\ (forall e2 a2, Parser.__call__ p2 s = Ret (err e2 a2) ->
     Parser.__call__ (Parser.__or__ p1 p2) s = Ret (err (e1 ++ " or " ++ e2) a2))
  /\ (forall x, Parser.__call__ p2 s = Raise x ->
     Parser.__call__ (Parser.__or__ p1 p2) s = Parser.__call__ p2 s).
Proof.
  intros H1. rewrite (or_after_failure _ p1 p2 _ _ _ H1).
  repeat split; intros; rewrite H; reflexivity.
Qed.

Lemma or_backtracks_to_original_input_witness :
  Parser.__call__
    (Parser.__or__ (Parser.retn the_letter_a 1%Z) (Parser.retn (string "b") 2%Z)) "ba"
  = Parser.__call__ (Parser.retn (string "b") 2%Z) "ba"
  /\ Parser.__call__
    (Parser.__or__ (Parser.retn the_letter_a 1%Z) (Parser.retn (string "b") 2%Z)) "ca"
  = Ret (err ("'a'" ++ " or " ++ "'b'") "ca").
Proof.
  split.
  - apply (proj1 (or_backtracks_to_original_input Z
      (Parser.retn the_letter_a 1%Z) (Parser.retn (string "b") 2%Z)
      "ba" "'a'" "ba" eq_refl) 2%Z "a").
    reflexivity.
  - apply (proj1 (proj2 (or_backtracks_to_original_input Z
      (Parser.retn the_letter_a 1%Z) (Parser.retn (string "b") 2%Z)
      "ca" "'a'" "ca" eq_refl)) "'b'" "ca").
    reflexivity.
Defined.

(** C6: when both branches fail, [p1 | p2] fails with expected
    "e1 or e2" and the actual of [p2]'s failure; when [p1] succeeds,
    [p1 | p2] is that Success, whatever [p2] is. *)
Theorem or_joins_expected_and_is_left_biased
  (T : Type) (p1 p2 : Parser.t T) (s : String.string) :
  (forall e1 a1 e2 a2,
     Parser.__call__ p1 s = Ret (err e1 a1) ->
     Parser.__call__ p2 s = Ret (err e2 a2) ->
     Parser.__call__ (Parser.__or__ p1 p2) s = Ret (err (e1 ++ " or " ++ e2) a2))
  /\ (forall v r,
     Parser.__call__ p1 s = Ret (ok v r) ->
     Parser.__call__ (Parser.__or__ p1 p2) s = Ret (ok v r)).
Proof.
  split.
  - intros e1 a1 e2 a2 H1 H2.
    rewrite (or_after_failure _ p1 p2 _ _ _ H1), H2. reflexivity.
  - intros v r. apply or_after_success.
Qed.

Lemma or_joins_expected_and_is_left_biased_witness :
  Parser.__call__
    (Parser.__or__ (Parser.retn the_letter_a 1%Z) (Parser.retn (string "b") 2%Z)) "ca"
  = Ret (err ("'a'" ++ " or " ++ "'b'") "ca")
  /\ Parser.__call__
    (Parser.__or__ (Parser.retn the_letter_a 1%Z)
       (Parser.retn (ParserRef.get (ParserRef.new unit)) 2%Z)) "aa"
  = Ret (ok 1%Z "a").
Proof.
  split.
  - apply (proj1 (or_joins_expected_and_is_left_biased Z
      (Parser.retn the_letter_a 1%Z) (Parser.retn (string "b") 2%Z) "ca")
      "'a'" "ca" "'b'" "ca"); reflexivity.
  - apply (proj2 (or_joins_expected_and_is_left_biased Z
      (Parser.retn the_letter_a 1%Z)
      (Parser.retn (ParserRef.get (ParserRef.new unit)) 2%Z) "aa")
      1%Z "a"); reflexivity.
Defined.

(** ** Product *)

Lemma mul_unfold (T U : Type) (p1 : Parser.t T) (p2 : Parser.t U) (s : String.string) :
  Parser.__call__ (Parser.__mul__ p1 p2) s
  = (r1 <- Parser.__call__ p1 s ;;
     match r1 with
     | ok v1 rem1 =>
         r2 <- Parser.__call__ p2 rem1 ;; Ret (Result.map r2 (fun v2 => (v1, v2)))
     | err e a => Ret (err e a)
     end).
Proof.
  unfold Parser.__mul__, Parser.__call__ at 1; simpl.
  destruct (Parser.__call__ p1 s) as [[v1 rem1|e a]|x]; reflexivity.
Qed.

(** C5: a failure of [p1] is the result of [p1 * p2] for every [p2], also
    for one that would abort if it were run, so [p2] is not run; a failure
    of [p2] on what [p1] left is the result as it is; two successes give
    the pair of values and what [p2] left. *)
Theorem mul_sequences_and_propagates
  (T U : Type) (p1 : Parser.t T) (p2 : Parser.t U) (s : String.string) :
  (forall e a,
     Parser.__call__ p1 s = Ret (err e a) ->
     Parser.__call__ (Parser.__mul__ p1 p2) s = Ret (err e a))
  /\ (forall v1 r1 e a,
     Parser.__call__ p1 s = Ret (ok v1 r1) ->
     Parser.__call__ p2 r1 = Ret (err e a) ->
     Parser.__call__ (Parser.__mul__ p1 p2) s = Ret (err e a))
  /\ (forall v1 r1 v2 r2,
     Parser.__call__ p1 s = Ret (ok v1 r1) ->
     Parser.__call__ p2 r1 = Ret (ok v2 r2) ->
     Parser.__call__ (Parser.__mul__ p1 p2) s = Ret (ok (v1, v2) r2)).
Proof.
  rewrite mul_unfold. repeat split.
  - intros e a H1. now rewrite H1.
  - intros v1 r1 e a H1 H2. rewrite H1; simpl. now rewrite H2.
  - intros v1 r1 v2 r2 H1 H2. rewrite H1; simpl. now rewrite H2.
Qed.

Lemma mul_sequences_and_propagates_witness :
  Parser.__call__
    (Parser.__mul__ the_letter_a (ParserRef.get (ParserRef.new unit))) "ba"
  = Ret (err "'a'" "ba")
  /\ Parser.__call__ (Parser.__mul__ the_letter_a the_letter_a) "ab"
  = Ret (err "'a'" "b")
  /\ Parser.__call__ (Parser.__mul__ the_letter_a integer) "a12b"
  = Ret (ok (tt, 12%Z) "b").
Proof.
  split; [|split].
  - apply (proj1 (mul_sequences_and_propagates unit unit the_letter_a
      (ParserRef.get (ParserRef.new unit)) "ba") "'a'" "ba"); reflexivity.
  - apply (proj1 (proj2 (mul_sequences_and_propagates unit unit the_letter_a
      the_letter_a "ab")) tt "b" "'a'" "b"); reflexivity.
  - apply (proj2 (proj2 (mul_sequences_and_propagates unit Z the_letter_a
      integer "a12b")) tt "12b" 12%Z "b"); reflexivity.
Defined.

(** ** before and then *)

Lemma map_unfold (T U : Type) (p : Parser.t T) (f : T -> U) (s : String.string) :
  Parser.__call__ (Parser.map p f) s
  = (r <- Parser.__call__ p s ;; Ret (Result.map r f)).
Proof. reflexivity. Qed.

Lemma retn_unfold (T U : Type) (p : Parser.t T) (v : U) (s : String.string) :
  Parser.__call__ (Parser.retn p v) s
  = (r <- Parser.__call__ p s ;; Ret (Result.map r (fun _ => v))).
Proof. reflexivity. Qed.

Lemma before_unfold (T U : Type) (p1 : Parser.t T) (p2 : Parser.t U) (s : String.string) :
  Parser.__call__ (Parser.before p1 p2) s
  = (r <- Parser.__call__ (Parser.__mul__ p1 p2) s ;; Ret (Result.map r snd)).
Proof. reflexivity. Qed.

Lemma then_unfold (T U : Type) (p1 : Parser.t T) (p2 : Parser.t U) (s : String.string) :
  Parser.__call__ (Parser.then_ p1 p2) s
  = (r <- Parser.__call__ (Parser.__mul__ p1 p2) s ;; Ret (Result.map r fst)).
Proof. reflexivity. Qed.

(** C9 as stated fails when a sub-parser aborts: the Parser of a
    [ParserRef] that was never [set] raises AttributeError, [before] and
    [then] pass the exception on, and the two results are neither both
    Success nor both a Failure. *)
Lemma before_then_abort_together :
  Parser.__call__ (Parser.before (ParserRef.get (ParserRef.new unit)) integer) "1"
  = Raise (AttributeError "_p")
  /\ Parser.__call__ (Parser.then_ (ParserRef.get (ParserRef.new unit)) integer) "1"
  = Raise (AttributeError "_p")
  /\ ~ ((exists v2 v1 r,
          Parser.__call__ (Parser.before (ParserRef.get (ParserRef.new unit)) integer) "1"
          = Ret (ok v2 r)
          /\ Parser.__call__ (Parser.then_ (ParserRef.get (ParserRef.new unit)) integer) "1"
          = Ret (ok v1 r))
        \/ (exists e a,
          Parser.__call__ (Parser.before (ParserRef.get (ParserRef.new unit)) integer) "1"
          = Ret (err e a)
          /\ Parser.__call__ (Parser.then_ (ParserRef.get (ParserRef.new unit)) integer) "1"
          = Ret (err e a))).
Proof.
  repeat split.
  intros [(v2 & v1 & r & H & _) | (e & a & H & _)]; discriminate H.
Qed.

(** C9, amended: on every text [p1.before(p2)] and [p1.then(p2)] are both
    Success with the same remaining text, [before] carrying the value of
    [p2] and [then] the value of [p1], or both the same Failure, or both
    abort with the same exception. *)
Theorem before_then_duality
  (T U : Type) (p1 : Parser.t T) (p2 : Parser.t U) (s : String.string) :
  (exists v1 r1 v2 r2,
     Parser.__call__ p1 s = Ret (ok v1 r1)
     /\ Parser.__call__ p2 r1 = Ret (ok v2 r2)
     /\ Parser.__call__ (Parser.before p1 p2) s = Ret (ok v2 r2)
     /\ Parser.__call__ (Parser.then_ p1 p2) s = Ret (ok v1 r2))
  \/ (exists e a,
     Parser.__call__ (Parser.before p1 p2) s = Ret (err e a)
     /\ Parser.__call__ (Parser.then_ p1 p2) s = Ret (err e a))
  \/ (exists x,
     Parser.__call__ (Parser.before p1 p2) s = Raise x
     /\ Parser.__call__ (Parser.then_ p1 p2) s = Raise x).
Proof.
  rewrite before_unfold, then_unfold, mul_unfold.
  destruct (Parser.__call__ p1 s) as [[v1 r1|e a]|x]; simpl.
  - destruct (Parser.__call__ p2 r1) as [[v2 r2|e a]|x] eqn:H2; simpl.
    + left. exists v1, r1, v2, r2. auto.
    + right; left. exists e, a. auto.
    + right; right. exists x. auto.
  - right; left. exists e, a. auto.
  - right; right. exists x. auto.
Qed.

(** ** ParserRef *)

(** C4 as stated fails: a second [set] on a cell that is bound returns
    normally, and the Parser of the cell then runs the second parser. *)
Lemma set_twice_returns_normally :
  ParserRef.set (ParserRef.new unit) the_letter_a
  = Ret (ParserRef.ParserRef (Some the_letter_a))
  /\ ParserRef.set (ParserRef.ParserRef (Some the_letter_a)) (string "b")
  = Ret (ParserRef.ParserRef (Some (string "b")))
  /\ ~ raises (ParserRef.set (ParserRef.ParserRef (Some the_letter_a)) (string "b"))
  /\ Parser.__call__
       (ParserRef.get (ParserRef.ParserRef (Some (string "b")))) "b"
     = Ret (ok tt "").
Proof.
  repeat split. intros [e H]; discriminate H.
Qed.

(** C4, amended: [set] on a cell that is already bound returns normally and
    replaces the parser of the cell; the Parser of the cell then runs the
    new parser.  It neither raises nor returns a Failure. *)
Theorem set_on_bound_cell_rebinds
  (T : Type) (cell : ParserRef.t T) (p0 p : Parser.t T) :
  ParserRef._p cell = Some p0 ->
  exists cell',
    ParserRef.set cell p = Ret cell'
    /\ ParserRef._p cell' = Some p
    /\ forall input,
         Parser.__call__ (ParserRef.get cell') input = Parser.__call__ p input.
Proof.
  intros _. exists (ParserRef.ParserRef (Some p)). repeat split.
Qed.

Lemma set_on_bound_cell_rebinds_witness :
  exists cell',
    ParserRef.set (ParserRef.ParserRef (Some the_letter_a)) (string "b") = Ret cell'
    /\ ParserRef._p cell' = Some (string "b")
    /\ forall input,
         Parser.__call__ (ParserRef.get cell') input
         = Parser.__call__ (string "b") input.
Proof.
  apply (set_on_bound_cell_rebinds unit
    (ParserRef.ParserRef (Some the_letter_a)) the_letter_a (string "b")).
  reflexivity.
Defined.

(** ** integer *)

Lemma slice_from_past (pos : nat) (input : String.string) :
  String.length input <= pos -> slice_from pos input = "".
Proof.
  revert input. induction pos as [|pos IH]; intros [|c t]; simpl; intros H;
    try reflexivity; try lia.
  apply IH. lia.
Qed.

Lemma slice_from_get (pos : nat) (input : String.string) :
  pos < String.length input ->
  exists c, String.get pos input = Some c
            /\ slice_from pos input = String c (slice_from (pos + 1) input).
Proof.
  revert input. induction pos as [|pos IH]; intros [|c t]; simpl; intros H;
    try lia.
  - exists c. split; [reflexivity|]. now destruct t.
  - apply IH. lia.
Qed.

(** The loop returns for every text: with fuel for the characters from
    [pos] on, it reads the leading run of [isdigit] characters there and
    stops after it. *)
Lemma integer_loop_spec (fuel : nat) :
  forall (input : String.string) (value : Z) (pos : nat),
    String.length input <= fuel + pos ->
    integer_loop fuel input value pos
    = Ret (accumulate value (leading_run isdigit (slice_from pos input)),
           pos + String.length (leading_run isdigit (slice_from pos input))).
Proof.
  induction fuel as [|fuel IH]; intros input value pos Hfuel; simpl.
  - rewrite slice_from_past by lia. simpl. f_equal. f_equal. lia.
  - destruct (Nat.ltb_spec pos (String.length input)) as [Hlt|Hge].
    + destruct (slice_from_get pos input Hlt) as (c & Hget & Hslice).
      unfold str_index. rewrite Hget, Hslice. simpl.
      destruct (isdigit c) eqn:Hc.
      * rewrite IH by lia. simpl. f_equal. f_equal. lia.
      * simpl. f_equal. f_equal. lia.
    + rewrite slice_from_past by lia. simpl. f_equal. f_equal. lia.
Qed.

(** What [integer] returns on each text. *)
Lemma integer_spec (input : String.string) :
  Parser.__call__ integer input
  = match input with
    | EmptyString => Ret (err "an integer" input)
    | String c _ =>
        if isdigit c
        then Ret (ok (accumulate 0 (leading_run isdigit input))
                     (slice_from (String.length (leading_run isdigit input)) input))
        else Ret (err "an integer" input)
    end.
Proof.
  unfold Parser.__call__, integer. cbn [Parser._parse].
  destruct input as [|c t]; [reflexivity|].
  cbn [str_not str_index String.get py_bind].
  destruct (isdigit c) eqn:Hc; cbn [negb]; [|reflexivity].
  rewrite integer_loop_spec by lia.
  cbn [py_bind]. rewrite slice_from_0. reflexivity.
Qed.

(** [integer] returns a Result on every text; it never raises. *)
Lemma integer_returns (input : String.string) :
  returns (Parser.__call__ integer input).
Proof.
  rewrite integer_spec. destruct input as [|c t]; [eexists; reflexivity|].
  destruct (isdigit c); eexists; reflexivity.
Qed.

Lemma leading_run_ascii_digits_only (s : String.string) :
  ascii_digits_only s = true ->
  leading_run isdigit s = leading_run is_ascii_digit s.
Proof.
  induction s as [|c t IH]; simpl; [reflexivity|].
  intros H. apply andb_prop in H. destruct H as [Hc Ht].
  apply Bool.eqb_prop in Hc. rewrite Hc.
  destruct (is_ascii_digit c); [|reflexivity].
  now rewrite IH.
Qed.

Lemma leading_run_split (test : ascii -> bool) (s : String.string) :
  s = leading_run test s ++ slice_from (String.length (leading_run test s)) s.
Proof.
  induction s as [|c t IH]; simpl; [reflexivity|].
  destruct (test c); simpl; [|reflexivity].
  now rewrite <- IH.
Qed.

(** On a text without superscript digits [integer] does what C7 says: it
    succeeds exactly when the first character is one of '0'..'9', takes
    the maximal leading run of such characters, returns its base 10 value
    and leaves the rest; otherwise it fails with expected "an integer" and
    the whole text as actual. *)
Lemma integer_on_ascii_digits (input : String.string) :
  ascii_digits_only input = true ->
  let run := leading_run is_ascii_digit input in
  let rest := slice_from (String.length run) input in
  input = run ++ rest
  /\ Parser.__call__ integer input
     = match run with
       | EmptyString => Ret (err "an integer" input)
       | String _ _ => Ret (ok (accumulate 0 run) rest)
       end.
Proof.
  intros Hascii run rest. split; [apply leading_run_split|].
  rewrite integer_spec. subst rest run.
  rewrite (leading_run_ascii_digits_only _ Hascii).
  destruct input as [|c t]; [reflexivity|].
  simpl in Hascii. apply andb_prop in Hascii. destruct Hascii as [Hc _].
  apply Bool.eqb_prop in Hc. rewrite Hc.
  simpl. destruct (is_ascii_digit c); reflexivity.
Qed.

(** C7, at a text that starts with no ASCII digit: the one-character text
    U+00B2 (superscript two) passes [isdigit], and [integer] returns
    Success(130, "") where the claim has the Failure "an integer". *)
Theorem integer_accepts_superscript_two :
  is_ascii_digit "178" = false
  /\ Parser.__call__ integer (String "178" "") = Ret (ok 130%Z "")
  /\ Parser.__call__ integer (String "178" "")
     <> Ret (err "an integer" (String "178" "")).
Proof. repeat split. discriminate. Qed.

(** ** Suffix monotonicity *)

Lemma the_letter_a_leaves_suffix : leaves_suffix the_letter_a.
Proof.
  intros [|c t] v r; [discriminate|].
  rewrite the_letter_a_nonempty.
  destruct (Ascii.eqb c "a"); intros H; inversion H; subst.
  apply is_suffix_tail, is_suffix_refl.
Qed.

Lemma string_leaves_suffix (expected : String.string) :
  leaves_suffix (string expected).
Proof.
  intros s v r. unfold Parser.__call__, string; simpl.
  destruct (startswith s expected); intros H; inversion H; subst.
  apply slice_from_is_suffix.
Qed.

Lemma skip_whitespace_leaves_suffix : leaves_suffix skip_whitespace.
Proof.
  intros s v r H. inversion H; subst. apply lstrip_is_suffix.
Qed.

Lemma integer_leaves_suffix : leaves_suffix integer.
Proof.
  intros s v r. rewrite integer_spec.
  destruct s as [|c t]; [discriminate|].
  destruct (isdigit c); intros H; inversion H; subst.
  apply slice_from_is_suffix.
Qed.

Lemma map_leaves_suffix (T U : Type) (p : Parser.t T) (f : T -> U) :
  leaves_suffix p -> leaves_suffix (Parser.map p f).
Proof.
  intros Hp s v r. rewrite map_unfold.
  destruct (Parser.__call__ p s) as [[v0 r0|e a]|x] eqn:E; simpl;
    intros H; inversion H; subst.
  eapply Hp, E.
Qed.

Lemma retn_leaves_suffix (T U : Type) (p : Parser.t T) (v : U) :
  leaves_suffix p -> leaves_suffix (Parser.retn p v).
Proof.
  intros Hp s v' r. rewrite retn_unfold.
  destruct (Parser.__call__ p s) as [[v0 r0|e a]|x] eqn:E; simpl;
    intros H; inversion H; subst.
  eapply Hp, E.
Qed.

Lemma mul_leaves_suffix (T U : Type) (p1 : Parser.t T) (p2 : Parser.t U) :
  leaves_suffix p1 -> leaves_suffix p2 -> leaves_suffix (Parser.__mul__ p1 p2).
Proof.
  intros H1 H2 s v r. rewrite mul_unfold.
  destruct (Parser.__call__ p1 s) as [[v1 r1|e a]|x] eqn:E1; simpl;
    try discriminate.
  destruct (Parser.__call__ p2 r1) as [[v2 r2|e a]|x] eqn:E2; simpl;
    intros H; inversion H; subst.
  eapply is_suffix_trans; [eapply H2, E2 | eapply H1, E1].
Qed.

Lemma or_leaves_suffix (T : Type) (p1 p2 : Parser.t T) :
  leaves_suffix p1 -> leaves_suffix p2 -> leaves_suffix (Parser.__or__ p1 p2).
Proof.
  intros H1 H2 s v r.
  destruct (Parser.__call__ p1 s) as [[v1 r1|e1 a1]|x] eqn:E1.
  - rewrite (or_after_success _ p1 p2 _ _ _ E1).
    intros H; inversion H; subst. eapply H1, E1.
  - rewrite (or_after_failure _ p1 p2 _ _ _ E1).
    destruct (Parser.__call__ p2 s) as [[v2 r2|e2 a2]|x] eqn:E2; simpl;
      intros H; inversion H; subst.
    eapply H2, E2.
  - unfold Parser.__or__, Parser.__call__ at 1; simpl.
    rewrite E1. discriminate.
Qed.

Lemma built_leaves_suffix (T : Type) (p : Parser.t T) :
  built T p -> leaves_suffix p.
Proof.
  induction 1.
  - apply the_letter_a_leaves_suffix.
  - apply string_leaves_suffix.
  - apply skip_whitespace_leaves_suffix.
  - apply integer_leaves_suffix.
  - now apply map_leaves_suffix.
  - now apply retn_leaves_suffix.
  - now apply mul_leaves_suffix.
  - now apply or_leaves_suffix.
  - unfold Parser.before. now apply map_leaves_suffix, mul_leaves_suffix.
  - unfold Parser.then_. now apply map_leaves_suffix, mul_leaves_suffix.
Qed.

(** C8: a parser built from the primitives and the combinators leaves, on
    Success, a suffix of its input, which is no longer than the input. *)
Theorem suffix_monotonicity
  (T : Type) (p : Parser.t T) (s : String.string) (v : T) (r : String.string) :
  built T p ->
  Parser.__call__ p s = Ret (ok v r) ->
  is_suffix r s /\ String.length r <= String.length s.
Proof.
  intros Hp Hs.
  assert (is_suffix r s) as Hsuffix by (eapply built_leaves_suffix; eauto).
  split; [assumption | now apply is_suffix_length].
Qed.

Lemma suffix_monotonicity_witness :
  is_suffix "b" "a12 b" /\ String.length "b" <= String.length "a12 b".
Proof.
  apply (suffix_monotonicity Z
    (Parser.then_ (Parser.before the_letter_a integer) skip_whitespace)
    "a12 b" 12%Z "b").
  - apply built_then; [apply built_before|];
      auto using built_the_letter_a, built_integer, built_skip_whitespace.
  - reflexivity.
Defined.

(** * Further properties of the code *)

(** ** Result.__eq__ *)

(** X1: when [==] on the values decides their equality, [__eq__] returns
    True exactly on two Results of the same variant with the same fields;
    an ok and an err are never equal. *)
Theorem result_eq_decides_equality
  (T : Type) (value_eq : T -> T -> bool) (r1 r2 : Result.t T) :
  (forall x y, value_eq x y = true <-> x = y) ->
  (Result.__eq__ value_eq r1 r2 = true <-> r1 = r2).
Proof.
  intros Hv. destruct r1 as [v1 s1|e1 a1], r2 as [v2 s2|e2 a2]; simpl.
  - rewrite andb_true_iff, Hv, String.eqb_eq.
    split; [intros [-> ->]; reflexivity | intros H; inversion H; auto].
  - split; discriminate.
  - split; discriminate.
  - rewrite andb_true_iff, !String.eqb_eq.
    split; [intros [-> ->]; reflexivity | intros H; inversion H; auto].
Qed.

Lemma result_eq_decides_equality_witness :
  Result.__eq__ Z.eqb (ok 123%Z "foo") (ok 123%Z "foo") = true
  <-> ok 123%Z "foo" = ok 123%Z "foo".
Proof.
  apply (result_eq_decides_equality Z Z.eqb (ok 123%Z "foo") (ok 123%Z "foo")).
  exact Z.eqb_eq.
Defined.

(** ** string *)

Lemma startswith_app (expected rest : String.string) :
  startswith (expected ++ rest) expected = true.
Proof.
  unfold startswith. induction expected as [|c e IH]; simpl.
  - now destruct rest.
  - destruct (ascii_dec c c) as [_|N]; [exact IH | now elim N].
Qed.

Lemma slice_from_app (expected rest : String.string) :
  slice_from (String.length expected) (expected ++ rest) = rest.
Proof.
  induction expected as [|c e IH]; simpl; [apply slice_from_0 | exact IH].
Qed.

Lemma startswith_split (s expected : String.string) :
  startswith s expected = true ->
  s = expected ++ slice_from (String.length expected) s.
Proof.
  unfold startswith. revert s.
  induction expected as [|c e IH]; intros s H; simpl.
  - now destruct s.
  - destruct s as [|d s]; simpl in H; [discriminate|].
    destruct (ascii_dec c d) as [->|_]; [|discriminate].
    simpl. f_equal. now apply IH.
Qed.

(** When [string(expected)] succeeds and when it fails. *)
Lemma string_call_iff (expected s : String.string) :
  (forall rest,
     Parser.__call__ (string expected) s = Ret (ok tt rest)
     <-> s = expected ++ rest)
  /\ (Parser.__call__ (string expected) s
      = Ret (err ("'" ++ expected ++ "'") s)
      <-> ~ exists rest, s = expected ++ rest).
Proof.
  unfold Parser.__call__, string; cbn [Parser._parse].
  destruct (startswith s expected) eqn:E.
  - pose proof (startswith_split _ _ E) as Hs. split.
    + intros rest. split.
      * intros H. inversion H. exact Hs.
      * intros H. rewrite H at 1. now rewrite slice_from_app.
    + split; [discriminate|]. intros N. elim N. eauto.
  - assert (~ exists rest, s = expected ++ rest) as N.
    { intros [rest ->]. rewrite startswith_app in E. discriminate. }
    split.
    + intros rest. split; [discriminate|]. intros H. elim N. eauto.
    + split; auto.
Qed.

Lemma string_returns (expected s : String.string) :
  returns (Parser.__call__ (string expected) s).
Proof.
  unfold Parser.__call__, string; cbn [Parser._parse].
  destruct (startswith s expected); eexists; reflexivity.
Qed.

(** X2: [string(expected)] returns a Result on every text: Success with
    the unit value and [rest] exactly when the text is [expected] followed
    by [rest], and the Failure with expected ['<expected>'] and the whole
    text as actual exactly when the text does not start with [expected]. *)
Theorem string_succeeds_iff_prefix (expected s : String.string) :
  returns (Parser.__call__ (string expected) s)
  /\ (forall rest,
     Parser.__call__ (string expected) s = Ret (ok tt rest)
     <-> s = expected ++ rest)
  /\ (Parser.__call__ (string expected) s
      = Ret (err ("'" ++ expected ++ "'") s)
      <-> ~ exists rest, s = expected ++ rest).
Proof.
  split; [apply string_returns | apply string_call_iff].
Qed.

(** X3: a Success of [string(expected)] consumes exactly the characters of
    [expected], and a Success of [the_letter_a] exactly one character. *)
Theorem literal_parsers_consume_their_length :
  (forall expected s v r,
     Parser.__call__ (string expected) s = Ret (ok v r) ->
     String.length s = String.length expected + String.length r)
  /\ (forall s v r,
     Parser.__call__ the_letter_a s = Ret (ok v r) ->
     String.length s = 1 + String.length r).
Proof.
  split.
  - intros expected s [] r H.
    apply (proj1 (string_call_iff expected s)) in H.
    rewrite H at 1. apply length_app.
  - intros [|c t] v r; [discriminate|].
    rewrite the_letter_a_nonempty.
    destruct (Ascii.eqb c "a"); intros H; inversion H; reflexivity.
Qed.

Lemma literal_parsers_consume_their_length_witness :
  String.length "foobar" = String.length "foo" + String.length "bar"
  /\ String.length "aaa" = 1 + String.length "aa".
Proof.
  split.
  - apply (proj1 literal_parsers_consume_their_length "foo" "foobar" tt "bar").
    reflexivity.
  - apply (proj2 literal_parsers_consume_their_length "aaa" tt "aa").
    reflexivity.
Defined.

(** X4: on every non-empty text [the_letter_a] returns what [string("a")]
    returns. *)
Theorem the_letter_a_agrees_with_string_a (s : String.string) :
  s <> "" ->
  Parser.__call__ the_letter_a s = Parser.__call__ (string "a") s.
Proof.
  destruct s as [|c t]; [congruence | intros _].
  rewrite the_letter_a_nonempty.
  unfold Parser.__call__, string, startswith; cbn [Parser._parse].
  change (String.prefix "a" (String c t))
    with (if ascii_dec "a" c then String.prefix "" t else false).
  destruct (ascii_dec "a" c) as [E|N].
  - subst c. rewrite Ascii.eqb_refl.
    replace (String.prefix "" t) with true by (now destruct t).
    reflexivity.
  - replace (Ascii.eqb c "a") with false; [reflexivity|].
    symmetry. apply Ascii.eqb_neq. congruence.
Qed.

Lemma the_letter_a_agrees_with_string_a_witness :
  Parser.__call__ the_letter_a "baa" = Parser.__call__ (string "a") "baa".
Proof.
  apply (the_letter_a_agrees_with_string_a "baa"). discriminate.
Defined.

(** ** skip_whitespace *)

Lemma lstrip_split (chars s : String.string) :
  s = leading_run (fun c => char_in c chars) s ++ lstrip chars s.
Proof.
  induction s as [|c t IH]; simpl; [reflexivity|].
  destruct (char_in c chars); simpl; [now rewrite <- IH | reflexivity].
Qed.

Lemma leading_run_all_chars (test : ascii -> bool) (s : String.string) :
  all_chars test (leading_run test s) = true.
Proof.
  induction s as [|c t IH]; simpl; [reflexivity|].
  destruct (test c) eqn:E; simpl; [now rewrite E | reflexivity].
Qed.

Lemma lstrip_stops (chars s : String.string) :
  starts_with_char (fun c => char_in c chars) (lstrip chars s) = false.
Proof.
  induction s as [|c t IH]; simpl; [reflexivity|].
  destruct (char_in c chars) eqn:E; simpl; [exact IH | exact E].
Qed.

Lemma lstrip_idempotent (chars s : String.string) :
  lstrip chars (lstrip chars s) = lstrip chars s.
Proof.
  induction s as [|c t IH]; simpl; [reflexivity|].
  destruct (char_in c chars) eqn:E; [exact IH|].
  simpl. now rewrite E.
Qed.

Lemma is_whitespace_iff (c : ascii) :
  is_whitespace c = true
  <-> c = " "%char \/ c = "010"%char \/ c = "013"%char \/ c = "009"%char.
Proof.
  unfold is_whitespace, whitespace; cbn [char_in].
  rewrite !orb_true_iff, !Ascii.eqb_eq. intuition discriminate.
Qed.

(** X5: [skip_whitespace] succeeds on every text; what it consumes is made
    of space, line feed, carriage return and tab only, and what it leaves
    does not start with one of them, so the run it strips is maximal. *)
Theorem skip_whitespace_strips_maximal_run (s : String.string) :
  exists ws r,
    Parser.__call__ skip_whitespace s = Ret (ok tt r)
    /\ s = ws ++ r
    /\ all_chars is_whitespace ws = true
    /\ starts_with_char is_whitespace r = false
    /\ forall c, is_whitespace c = true
         <-> c = " "%char \/ c = "010"%char \/ c = "013"%char \/ c = "009"%char.
Proof.
  exists (leading_run is_whitespace s), (lstrip whitespace s).
  split; [reflexivity|].
  split; [apply lstrip_split|].
  split; [apply leading_run_all_chars|].
  split; [apply lstrip_stops | apply is_whitespace_iff].
Qed.

(** X6: skipping whitespace twice is skipping it once: on every text
    [skip_whitespace.then(skip_whitespace)] and
    [skip_whitespace.before(skip_whitespace)] return what [skip_whitespace]
    returns. *)
Theorem skip_whitespace_twice (s : String.string) :
  Parser.__call__ (Parser.then_ skip_whitespace skip_whitespace) s
  = Parser.__call__ skip_whitespace s
  /\ Parser.__call__ (Parser.before skip_whitespace skip_whitespace) s
     = Parser.__call__ skip_whitespace s.
Proof.
  rewrite then_unfold, before_unfold, mul_unfold.
  unfold Parser.__call__, skip_whitespace; cbn [Parser._parse py_bind].
  cbn [Result.map fst snd]. rewrite lstrip_idempotent. split; reflexivity.
Qed.

(** ** map and retn *)

(** X7: [map] is a functor on parsers: mapping the identity changes no
    result, and mapping [f] and then [g] is mapping their composition. *)
Theorem map_identity_and_composition
  (T U V : Type) (p : Parser.t T) (f : T -> U) (g : U -> V) (s : String.string) :
  Parser.__call__ (Parser.map p (fun x => x)) s = Parser.__call__ p s
  /\ Parser.__call__ (Parser.map (Parser.map p f) g) s
     = Parser.__call__ (Parser.map p (fun x => g (f x))) s.
Proof.
  rewrite !map_unfold.
  destruct (Parser.__call__ p s) as [[v r|e a]|x]; split; reflexivity.
Qed.

(** X8: [map] and [retn] change nothing but the value: a Success keeps its
    remaining text, a Failure passes through with its expected and its
    actual, and [retn] replaces any value by the constant. *)
Theorem map_and_retn_change_only_the_value
  (T U : Type) (p : Parser.t T) (f : T -> U) (u : U) (s : String.string) :
  (forall v r, Parser.__call__ p s = Ret (ok v r) ->
     Parser.__call__ (Parser.map p f) s = Ret (ok (f v) r)
     /\ Parser.__call__ (Parser.retn p u) s = Ret (ok u r))
  /\ (forall e a, Parser.__call__ p s = Ret (err e a) ->
     Parser.__call__ (Parser.map p f) s = Ret (err e a)
     /\ Parser.__call__ (Parser.retn p u) s = Ret (err e a)).
Proof.
  rewrite map_unfold, retn_unfold.
  split; intros ? ? H; rewrite H; split; reflexivity.
Qed.

Lemma map_and_retn_change_only_the_value_witness :
  (Parser.__call__ (Parser.map integer Z.succ) "41x" = Ret (ok (Z.succ 41) "x")
   /\ Parser.__call__ (Parser.retn integer 7%Z) "41x" = Ret (ok 7%Z "x"))
  /\ (Parser.__call__ (Parser.map integer Z.succ) "x" = Ret (err "an integer" "x")
   /\ Parser.__call__ (Parser.retn integer 7%Z) "x" = Ret (err "an integer" "x")).
Proof.
  split.
  - apply (proj1 (map_and_retn_change_only_the_value Z Z integer Z.succ 7%Z "41x")
      41%Z "x"). reflexivity.
  - apply (proj2 (map_and_retn_change_only_the_value Z Z integer Z.succ 7%Z "x")
      "an integer" "x"). reflexivity.
Defined.

(** ** Exceptions *)

Lemma or_unfold (T : Type) (p1 p2 : Parser.t T) (s : String.string) :
  Parser.__call__ (Parser.__or__ p1 p2) s
  = (r1 <- Parser.__call__ p1 s ;;
     match r1 with
     | ok v r => Ret (ok v r)
     | err e1 _ =>
         r2 <- Parser.__call__ p2 s ;;
         Ret (Result.map_expected r2 (fun e2 => e1 ++ " or " ++ e2))
     end).
Proof.
  unfold Parser.__or__, Parser.__call__ at 1; cbn [Parser._parse].
  destruct (Parser.__call__ p1 s) as [[v r|e a]|x]; reflexivity.
Qed.

(** X9: no combinator catches an exception.  When [p1] aborts on a text,
    so do [map], [retn], product, ordered choice, [before] and [then]
    built on it, with the same exception: ordered choice does not fall
    back to its second branch, and nothing turns the abort into a
    Failure. *)
Theorem exception_of_first_parser_passes_through
  (T U V : Type) (p1 q : Parser.t T) (p2 : Parser.t U) (f : T -> V) (v : V)
  (s : String.string) (x : exn) :
  Parser.__call__ p1 s = Raise x ->
  Parser.__call__ (Parser.map p1 f) s = Raise x
  /\ Parser.__call__ (Parser.retn p1 v) s = Raise x
  /\ Parser.__call__ (Parser.__mul__ p1 p2) s = Raise x
  /\ Parser.__call__ (Parser.__or__ p1 q) s = Raise x
  /\ Parser.__call__ (Parser.before p1 p2) s = Raise x
  /\ Parser.__call__ (Parser.then_ p1 p2) s = Raise x.
Proof.
  intros H.
  rewrite before_unfold, then_unfold, map_unfold, retn_unfold, mul_unfold,
    or_unfold.
  rewrite H. repeat split.
Qed.

Lemma exception_of_first_parser_passes_through_witness :
  Parser.__call__ (Parser.map the_letter_a (fun _ => 1%Z)) "" = Raise IndexError
  /\ Parser.__call__ (Parser.retn the_letter_a 1%Z) "" = Raise IndexError
  /\ Parser.__call__ (Parser.__mul__ the_letter_a integer) "" = Raise IndexError
  /\ Parser.__call__ (Parser.__or__ the_letter_a (string "")) "" = Raise IndexError
  /\ Parser.__call__ (Parser.before the_letter_a integer) "" = Raise IndexError
  /\ Parser.__call__ (Parser.then_ the_letter_a integer) "" = Raise IndexError.
Proof.
  apply (exception_of_first_parser_passes_through unit Z Z
    the_letter_a (string "") integer (fun _ => 1%Z) 1%Z "" IndexError).
  reflexivity.
Defined.

(** X10: when [p1] succeeds and [p2] aborts on what [p1] left, product,
    [before] and [then] abort with the exception of [p2]. *)
Theorem exception_of_second_parser_passes_through
  (T U : Type) (p1 : Parser.t T) (p2 : Parser.t U)
  (s : String.string) (v1 : T) (r1 : String.string) (x : exn) :
  Parser.__call__ p1 s = Ret (ok v1 r1) ->
  Parser.__call__ p2 r1 = Raise x ->
  Parser.__call__ (Parser.__mul__ p1 p2) s = Raise x
  /\ Parser.__call__ (Parser.before p1 p2) s = Raise x
  /\ Parser.__call__ (Parser.then_ p1 p2) s = Raise x.
Proof.
  intros H1 H2. rewrite before_unfold, then_unfold, mul_unfold, H1.
  cbn [py_bind]. rewrite H2. repeat split.
Qed.

Lemma exception_of_second_parser_passes_through_witness :
  Parser.__call__ (Parser.__mul__ the_letter_a the_letter_a) "a" = Raise IndexError
  /\ Parser.__call__ (Parser.before the_letter_a the_letter_a) "a" = Raise IndexError
  /\ Parser.__call__ (Parser.then_ the_letter_a the_letter_a) "a" = Raise IndexError.
Proof.
  apply (exception_of_second_parser_passes_through unit unit
    the_letter_a the_letter_a "a" tt "" IndexError); reflexivity.
Defined.

(** ** Product and ordered choice are associative *)

(** X11: [(p1 * p2) * p3] and [p1 * (p2 * p3)] fail, abort and succeed on
    the same texts, with the same failure, exception and remaining text;
    the values of a Success are the same three, nested to the left in one
    and to the right in the other. *)
Theorem mul_associative
  (A B C : Type) (p1 : Parser.t A) (p2 : Parser.t B) (p3 : Parser.t C)
  (s : String.string) :
  Parser.__call__ (Parser.__mul__ (Parser.__mul__ p1 p2) p3) s
  = (r <- Parser.__call__ (Parser.__mul__ p1 (Parser.__mul__ p2 p3)) s ;;
     Ret (Result.map r reassociate)).
Proof.
  rewrite (mul_unfold _ _ (Parser.__mul__ p1 p2) p3).
  rewrite (mul_unfold _ _ p1 (Parser.__mul__ p2 p3)).
  rewrite (mul_unfold _ _ p1 p2).
  destruct (Parser.__call__ p1 s) as [[v1 r1|e a]|x]; cbn [py_bind];
    try reflexivity.
  rewrite (mul_unfold _ _ p2 p3).
  destruct (Parser.__call__ p2 r1) as [[v2 r2|e a]|x];
    cbn [py_bind Result.map]; try reflexivity.
  destruct (Parser.__call__ p3 r2) as [[v3 r3|e a]|x]; reflexivity.
Qed.

Lemma append_associative (a b c : String.string) :
  (a ++ b) ++ c = a ++ (b ++ c).
Proof.
  induction a as [|x a IH]; simpl; [reflexivity | now rewrite IH].
Qed.

(** X12: ordered choice is associative: on every text [(p1 | p2) | p3] and
    [p1 | (p2 | p3)] return the same result, also the same joined expected
    message "e1 or e2 or e3" when all three fail. *)
Theorem or_associative
  (T : Type) (p1 p2 p3 : Parser.t T) (s : String.string) :
  Parser.__call__ (Parser.__or__ (Parser.__or__ p1 p2) p3) s
  = Parser.__call__ (Parser.__or__ p1 (Parser.__or__ p2 p3)) s.
Proof.
  rewrite (or_unfold _ (Parser.__or__ p1 p2) p3).
  rewrite (or_unfold _ p1 (Parser.__or__ p2 p3)).
  rewrite (or_unfold _ p1 p2), (or_unfold _ p2 p3).
  destruct (Parser.__call__ p1 s) as [[v1 r1|e1 a1]|x]; cbn [py_bind];
    try reflexivity.
  destruct (Parser.__call__ p2 s) as [[v2 r2|e2 a2]|x];
    cbn [py_bind Result.map_expected]; try reflexivity.
  destruct (Parser.__call__ p3 s) as [[v3 r3|e3 a3]|x];
    cbn [py_bind Result.map_expected]; try reflexivity.
  now rewrite append_associative.
Qed.

(** ** integer *)

Lemma isdigit_ord (c : ascii) : isdigit c = true -> (48 <= ord c)%Z.
Proof.
  unfold isdigit. cbv zeta.
  rewrite !orb_true_iff, andb_true_iff, !Z.eqb_eq, !Z.leb_le. lia.
Qed.

Lemma accumulate_nonnegative (run : String.string) :
  forall value : Z,
    (0 <= value)%Z -> all_chars isdigit run = true ->
    (0 <= accumulate value run)%Z.
Proof.
  induction run as [|c t IH]; simpl; intros value Hv Hall; [exact Hv|].
  apply andb_prop in Hall. destruct Hall as [Hc Ht].
  apply IH; [|exact Ht]. apply isdigit_ord in Hc. lia.
Qed.

Lemma after_leading_run_stops (test : ascii -> bool) (s : String.string) :
  starts_with_char test (slice_from (String.length (leading_run test s)) s)
  = false.
Proof.
  induction s as [|c t IH]; simpl; [reflexivity|].
  destruct (test c) eqn:E; simpl; [exact IH | exact E].
Qed.

(** X13: a Success of [integer] has a value that is not negative, leaves a
    text that does not start with a character [isdigit] accepts, and has
    consumed at least one character. *)
Theorem integer_success_facts (s : String.string) (v : Z) (r : String.string) :
  Parser.__call__ integer s = Ret (ok v r) ->
  (0 <= v)%Z
  /\ starts_with_char isdigit r = false
  /\ String.length r < String.length s.
Proof.
  rewrite integer_spec. destruct s as [|c t]; [discriminate|].
  destruct (isdigit c) eqn:Hc; [|discriminate].
  intros H. inversion H; subst v r; clear H.
  split; [|split].
  - apply accumulate_nonnegative;
      [lia | exact (leading_run_all_chars isdigit (String c t))].
  - exact (after_leading_run_stops isdigit (String c t)).
  - pose proof (leading_run_split isdigit (String c t)) as Hs.
    apply (f_equal String.length) in Hs. rewrite length_app in Hs.
    revert Hs. cbn [leading_run]. rewrite Hc. cbn [String.length]. lia.
Qed.

Lemma integer_success_facts_witness :
  (0 <= 123)%Z
  /\ starts_with_char isdigit "foo" = false
  /\ String.length "foo" < String.length "123foo".
Proof.
  apply (integer_success_facts "123foo" 123%Z "foo"). reflexivity.
Defined.

(** X14: [integer] never aborts: on every text it returns a Result, and a
    Failure it returns has expected "an integer" and the whole text as
    actual. *)
Theorem integer_never_aborts (s : String.string) :
  exists result,
    Parser.__call__ integer s = Ret result
    /\ (Result.is_err result = true -> result = err "an integer" s).
Proof.
  rewrite integer_spec. destruct s as [|c t].
  - eexists; split; [reflexivity | reflexivity].
  - destruct (isdigit c); eexists; (split; [reflexivity|]);
      [discriminate | reflexivity].
Qed.

(** ** The empty literal and literals in sequence *)

(** X15: [string("")] is a unit of sequencing: on every text
    [string("").before(p)] and [p.then(string(""))] return what [p]
    returns. *)
Theorem string_empty_is_unit_of_sequencing
  (T : Type) (p : Parser.t T) (s : String.string) :
  Parser.__call__ (Parser.before (string "") p) s = Parser.__call__ p s
  /\ Parser.__call__ (Parser.then_ p (string "")) s = Parser.__call__ p s.
Proof.
  assert (forall t, Parser.__call__ (string "") t = Ret (ok tt t)) as Hunit.
  { intros t. now apply (proj1 (string_call_iff "" t)). }
  rewrite before_unfold, then_unfold, !mul_unfold.
  rewrite Hunit. cbn [py_bind].
  destruct (Parser.__call__ p s) as [[v r|e a]|x]; cbn [py_bind Result.map];
    try (split; reflexivity).
  rewrite Hunit. split; reflexivity.
Qed.

(** X16: two literals in sequence succeed where the joined literal does:
    [string(a).then(string(b))] returns Success with remaining [r] on
    exactly the texts on which [string(a + b)] does. *)
Theorem string_then_string_is_string_of_concatenation
  (a b s r : String.string) :
  Parser.__call__ (Parser.then_ (string a) (string b)) s = Ret (ok tt r)
  <-> Parser.__call__ (string (a ++ b)) s = Ret (ok tt r).
Proof.
  rewrite (proj1 (string_call_iff (a ++ b) s) r).
  rewrite append_associative, then_unfold, mul_unfold.
  split.
  - destruct (Parser.__call__ (string a) s) as [[[] r1|e1 a1]|x] eqn:E1;
      cbn [py_bind]; try discriminate.
    destruct (Parser.__call__ (string b) r1) as [[[] r2|e2 a2]|x] eqn:E2;
      cbn [py_bind Result.map fst]; try discriminate.
    intros H. inversion H; subst r2.
    apply (proj1 (string_call_iff a s)) in E1.
    apply (proj1 (string_call_iff b r1)) in E2.
    now rewrite E1, E2.
  - intros Hs.
    rewrite (proj2 (proj1 (string_call_iff a s) (b ++ r)) Hs).
    cbn [py_bind].
    rewrite (proj2 (proj1 (string_call_iff b (b ++ r)) r) eq_refl).
    reflexivity.
Qed.

(** ** ParserRef *)


(** ** Suffix monotonicity for any sub-parsers *)

(** X18: the combinators keep suffix monotonicity for whatever parsers they
    are given: when every Success of [p1], [p2] and [q] leaves a suffix of
    the text it was given, so does every Success of [map], [retn], product,
    ordered choice, [before], [then] on them, and of the Parser of a cell
    bound to [p1]. *)
Theorem combinators_keep_suffix_monotonicity
  (T U V : Type) (p1 q : Parser.t T) (p2 : Parser.t U) (f : T -> V) (v : V)
  (cell : ParserRef.t T) :
  leaves_suffix p1 -> leaves_suffix p2 -> leaves_suffix q ->
  ParserRef._p cell = Some p1 ->
  leaves_suffix (Parser.map p1 f)
  /\ leaves_suffix (Parser.retn p1 v)
  /\ leaves_suffix (Parser.__mul__ p1 p2)
  /\ leaves_suffix (Parser.__or__ p1 q)
  /\ leaves_suffix (Parser.before p1 p2)
  /\ leaves_suffix (Parser.then_ p1 p2)
  /\ leaves_suffix (ParserRef.get cell).
Proof.
  intros H1 H2 Hq Hcell.
  pose proof (mul_leaves_suffix _ _ _ _ H1 H2) as Hmul.
  repeat split.
  - now apply map_leaves_suffix.
  - now apply retn_leaves_suffix.
  - exact Hmul.
  - now apply or_leaves_suffix.
  - unfold Parser.before. now apply map_leaves_suffix.
  - unfold Parser.then_. now apply map_leaves_suffix.
  - intros s v0 r.
    unfold ParserRef.get, Parser.__call__ at 1, ParserRef.__call__;
      cbn [Parser._parse]. rewrite Hcell. apply H1.
Qed.

Lemma combinators_keep_suffix_monotonicity_witness :
  leaves_suffix (Parser.map integer Z.succ)
  /\ leaves_suffix (Parser.retn integer 0%Z)
  /\ leaves_suffix (Parser.__mul__ integer skip_whitespace)
  /\ leaves_suffix (Parser.__or__ integer integer)
  /\ leaves_suffix (Parser.before integer skip_whitespace)
  /\ leaves_suffix (Parser.then_ integer skip_whitespace)
  /\ leaves_suffix (ParserRef.get (ParserRef.ParserRef (Some integer))).
Proof.
  apply (combinators_keep_suffix_monotonicity Z unit Z
    integer integer skip_whitespace Z.succ 0%Z
    (ParserRef.ParserRef (Some integer))).
  - exact integer_leaves_suffix.
  - exact skip_whitespace_leaves_suffix.
  - exact integer_leaves_suffix.
  - reflexivity.
Defined.

(** ** Ordered choice with the other combinators *)

(** X19: [map] distributes over ordered choice: on every text
    [(p1 | p2).map(f)] and [p1.map(f) | p2.map(f)] return the same result,
    the joined expected message included. *)
Theorem map_distributes_over_or
  (T U : Type) (p1 p2 : Parser.t T) (f : T -> U) (s : String.string) :
  Parser.__call__ (Parser.map (Parser.__or__ p1 p2) f) s
  = Parser.__call__ (Parser.__or__ (Parser.map p1 f) (Parser.map p2 f)) s.
Proof.
  rewrite map_unfold, !or_unfold, !map_unfold.
  destruct (Parser.__call__ p1 s) as [[v1 r1|e1 a1]|x];
    cbn [py_bind Result.map]; try reflexivity.
  destruct (Parser.__call__ p2 s) as [[v2 r2|e2 a2]|x]; reflexivity.
Qed.

(** X20: ordered choice commits to its first Success.  When [p1] succeeds
    and [q] then fails on what [p1] left, [(p1 | p2) * q] returns that
    failure of [q]: the second branch is not tried, whatever [p2 * q] would
    return on the text. *)
Theorem or_commits_to_first_success
  (T U : Type) (p1 p2 : Parser.t T) (q : Parser.t U)
  (s : String.string) (v1 : T) (r1 e a : String.string) :
  Parser.__call__ p1 s = Ret (ok v1 r1) ->
  Parser.__call__ q r1 = Ret (err e a) ->
  Parser.__call__ (Parser.__mul__ (Parser.__or__ p1 p2) q) s = Ret (err e a).
Proof.
  intros H1 Hq. rewrite mul_unfold, or_unfold, H1. cbn [py_bind].
  now rewrite Hq.
Qed.

Lemma or_commits_to_first_success_witness :
  Parser.__call__
    (Parser.__mul__ (Parser.__or__ (string "a") (string "ab")) (string "c")) "abc"
  = Ret (err "'c'" "bc").
Proof.
  apply (or_commits_to_first_success unit unit
    (string "a") (string "ab") (string "c") "abc" tt "bc" "'c'" "bc");
    reflexivity.
Defined.
